(** * flat_to_opc: conversion of Flat OPC documents to OPC (ZIP) packages

    A shallow embedding of [src/flat_to_opc.py].  The Python module has three
    layers, all kept here under their source names:

    - [ContentTypes]: the content-type registry with [add_content] and
      [write_xml_data];
    - [find_packages]: the generator that reads the flat document, parses it
      and yields one [PackagePart] per [pkg:part] element;
    - [flat_to_opc] and [flat_to_opc_bytes]: the two entry points that write
      the parts and the manifest to a ZIP archive.

    The libraries the module imports (lxml, base64, zipfile) are interfaces
    here: type classes whose operations the embedding calls exactly where the
    source calls them.  The file system is an explicit state. *)

From Stdlib Require Import List Arith NArith Bool String Ascii Lia.
Import ListNotations.

Local Open Scope N_scope.

(** ** Python values *)

(** A Python [str] is a sequence of Unicode code points. *)
Definition str := list N.

(** A Python [bytes] object. *)
Definition bytes := list Byte.byte.

(** String literals of the source are ASCII: one code point per character. *)
Definition lit (s : string) : str :=
  List.map N_of_ascii (list_ascii_of_string s).

Definition LF : N := 10.
Definition CR : N := 13.

Definition byte_of_N (n : N) : Byte.byte :=
  match Byte.of_N (n mod 256) with
  | Some b => b
  | None => Byte.x00
  end.

(** Exceptions the module can raise or let through. *)
Inductive exn : Type :=
| XMLSyntaxError (msg : str)
| KeyError (key : str)
| IndexError
| TypeError
| ValueError
| UnicodeEncodeError
| BinasciiError
| IsADirectoryError
| FileNotFoundError
| LibraryError (msg : str).

(** A computation that returns or raises. *)
Inductive result (A : Type) : Type :=
| Ok (a : A)
| Err (e : exn).
Arguments Ok {A} a.
Arguments Err {A} e.

Definition bind {A B} (r : result A) (k : A -> result B) : result B :=
  match r with
  | Ok a => k a
  | Err e => Err e
  end.

Notation "x <- r ;; k" := (bind r (fun x => k))
  (at level 61, r at next level, right associativity).

(** [==] on [str]. *)
Fixpoint str_eqb (a b : str) : bool :=
  match a, b with
  | [], [] => true
  | x :: a', y :: b' => (x =? y) && str_eqb a' b'
  | _, _ => false
  end.

(** [s.startswith(p)], used by [endswith] and [in]. *)
Fixpoint startswith (s p : str) : bool :=
  match p, s with
  | [], _ => true
  | x :: p', y :: s' => (x =? y) && startswith s' p'
  | _ :: _, [] => false
  end.

(** [s.endswith(suffix)]: the last [len(suffix)] code points are [suffix]. *)
Definition endswith (s suffix : str) : bool :=
  Nat.leb (List.length suffix) (List.length s)
  && str_eqb (skipn (Nat.sub (List.length s) (List.length suffix)) s) suffix.

(** [needle in hay] on strings: [needle] occurs as a contiguous run. *)
Fixpoint contains (hay needle : str) : bool :=
  startswith hay needle
  || match hay with
     | [] => false
     | _ :: hay' => contains hay' needle
     end.

(** [s[i:]]: slicing never raises, past the end it is empty. *)
Definition slice_from (i : nat) (s : str) : str := skipn i s.

(** [char in xs] for a list of one-character strings. *)
Definition char_in (c : N) (xs : list N) : bool := existsb (N.eqb c) xs.

(** [s.encode("utf-8")].  Lone surrogates cannot be encoded. *)
Definition utf8_char (c : N) : result bytes :=
  if c <? 0x80 then Ok [byte_of_N c]
  else if c <? 0x800 then
    Ok [byte_of_N (N.lor 0xC0 (N.shiftr c 6));
        byte_of_N (N.lor 0x80 (N.land c 0x3F))]
  else if (0xD800 <=? c) && (c <=? 0xDFFF) then Err UnicodeEncodeError
  else if c <? 0x10000 then
    Ok [byte_of_N (N.lor 0xE0 (N.shiftr c 12));
        byte_of_N (N.lor 0x80 (N.land (N.shiftr c 6) 0x3F));
        byte_of_N (N.lor 0x80 (N.land c 0x3F))]
  else
    Ok [byte_of_N (N.lor 0xF0 (N.shiftr c 18));
        byte_of_N (N.lor 0x80 (N.land (N.shiftr c 12) 0x3F));
        byte_of_N (N.lor 0x80 (N.land (N.shiftr c 6) 0x3F));
        byte_of_N (N.lor 0x80 (N.land c 0x3F))].

Fixpoint encode_utf8 (s : str) : result bytes :=
  match s with
  | [] => Ok []
  | c :: s' =>
      b <- utf8_char c ;;
      bs <- encode_utf8 s' ;;
      Ok (b ++ bs)
  end.

(** ** Dictionaries

    A Python [dict] keeps its keys in insertion order; assigning to a key
    that is present replaces the value in place. *)
Definition dict (V : Type) := list (str * V).

Fixpoint setitem {V} (d : dict V) (k : str) (v : V) : dict V :=
  match d with
  | [] => [(k, v)]
  | (k', v') :: d' =>
      if str_eqb k' k then (k', v) :: d' else (k', v') :: setitem d' k v
  end.

Fixpoint get {V} (d : dict V) (k : str) : option V :=
  match d with
  | [] => None
  | (k', v') :: d' => if str_eqb k' k then Some v' else get d' k
  end.

(** [d[k]] raises [KeyError] on a missing key. *)
Definition getitem {V} (d : dict V) (k : str) : result V :=
  match get d k with
  | Some v => Ok v
  | None => Err (KeyError k)
  end.

Definition keys {V} (d : dict V) : list str := List.map fst d.

(** [xs[0]] raises [IndexError] on an empty list. *)
Definition index0 {A} (xs : list A) : result A :=
  match xs with
  | x :: _ => Ok x
  | [] => Err IndexError
  end.

(** ** XML trees as lxml presents them

    An lxml node has a tag (a string in Clark notation [{namespace}local] for
    an element; comments and processing instructions have none), the
    namespace declarations it carries, its attributes, the text before its
    first child, its children and the text after it. *)
Inductive tag : Type :=
| QName (clark : str)
| Comment
| ProcessingInstruction.

#[warnings="-register-all"] Inductive element : Type :=
| Element (t : tag) (nsmap : list (option str * str)) (attrib : dict str)
          (text : option str) (children : list element) (tail : option str).

Definition tag_of (e : element) : tag :=
  match e with Element t _ _ _ _ _ => t end.
Definition attrib (e : element) : dict str :=
  match e with Element _ _ a _ _ _ => a end.
Definition text (e : element) : option str :=
  match e with Element _ _ _ x _ _ => x end.
(** [list(e)]: the child nodes in document order. *)
Definition children (e : element) : list element :=
  match e with Element _ _ _ _ cs _ => cs end.

(** ["{{{ns}}}local".format(ns=ns)] *)
Definition clark (ns local : str) : str :=
  lit "{" ++ ns ++ lit "}" ++ local.

Definition tag_eqb (t : tag) (name : str) : bool :=
  match t with
  | QName c => str_eqb c name
  | _ => false
  end.

(** Every node of the document, in document order. *)
Fixpoint descendants_or_self (e : element) : list element :=
  match e with
  | Element _ _ _ _ cs _ => e :: flat_map descendants_or_self cs
  end.

(** [tree.xpath("//prefix:local", namespaces={prefix: ns})] *)
Definition xpath_all (tree : element) (ns local : str) : list element :=
  filter (fun e => tag_eqb (tag_of e) (clark ns local))
         (descendants_or_self tree).

(** [etree.SubElement(parent, tag, nsmap=nsmap)] makes an empty element and
    appends it to [parent]; [node.set(k, v)] then changes the appended node.
    The embedding builds the node first and appends it with its attributes. *)
Definition new_element (name : str) (nsmap : list (option str * str))
  : element :=
  Element (QName name) nsmap [] None [] None.

Definition set_attr (e : element) (k v : str) : element :=
  match e with
  | Element t ns a x cs tl => Element t ns (setitem a k v) x cs tl
  end.

Definition append_child (parent child : element) : element :=
  match parent with
  | Element t ns a x cs tl => Element t ns a x (cs ++ [child]) tl
  end.

(** ** The libraries the module calls *)

(** lxml.  [fromstring huge_tree content] is
    [etree.fromstring(content, parser=XMLParser(huge_tree=huge_tree))], the
    default parser having [huge_tree=False].  [tostring e] is
    [etree.tostring(e, xml_declaration=True, encoding="UTF-8",
    pretty_print=False, with_tail=False, standalone=True)], the only way the
    module calls it. *)
Class XmlLib : Type := {
  fromstring : bool -> bytes -> result element;
  tostring : element -> bytes
}.

(** [base64.b64decode] *)
Class Base64Lib : Type := {
  b64decode : bytes -> result bytes
}.

(** zipfile.  An archive is known by the entries written to it with
    [writestr], in order; [zip_image] is the byte image [ZipFile.close]
    leaves in the sink. *)
Definition entry : Type := str * bytes.

Class ZipLib : Type := {
  zip_image : list entry -> bytes
}.

(** ** The file system

    What the module sees of it: a path names a file with its content, a
    directory, or nothing.  A path string stands for the file it names, so
    two paths are the same file exactly when they are the same string; a
    path that is not a directory can be opened for writing. *)
Inductive node : Type :=
| File (content : bytes)
| Dir.

Definition filesystem := str -> option node.

(** [os.path.exists(path)] *)
Definition path_exists (fs : filesystem) (path : str) : bool :=
  match fs path with
  | Some _ => true
  | None => false
  end.

(** [with io.open(path, mode="rb") as f: f.read()] *)
Definition read_file (fs : filesystem) (path : str) : result bytes :=
  match fs path with
  | Some (File content) => Ok content
  | Some Dir => Err IsADirectoryError
  | None => Err FileNotFoundError
  end.

Definition write_file (fs : filesystem) (path : str) (content : bytes)
  : filesystem :=
  fun p => if str_eqb p path then Some (File content) else fs p.

(** Opening [path] for writing, as [zipfile.ZipFile(path, mode="w")] does:
    the file is created or truncated at once. *)
Definition open_w (fs : filesystem) (path : str) : result filesystem :=
  match fs path with
  | Some Dir => Err IsADirectoryError
  | _ => Ok (write_file fs path [])
  end.

(** ** class ContentTypes *)
Module ContentTypes.

Definition CT : str :=
  lit "http://schemas.openxmlformats.org/package/2006/content-types".
Definition NS : list (option str * str) := [(Some (lit "ct"), CT)].

Record t : Type := mk {
  _defaults : dict str;
  _overrides : dict str
}.

(** [__init__] *)
Definition init : t := {| _defaults := []; _overrides := [] |}.

(** The root of [etree.parse(io.StringIO('<Types xmlns="CT"/>'))]. *)
Definition types_root : element :=
  Element (QName (clark CT (lit "Types"))) [(None, CT)] [] None [] None.

(** [key, value = x] where [x] is a string: its characters are unpacked
    and there must be two of them. *)
Definition unpack_pair (x : str) : result (str * str) :=
  match x with
  | [a; b] => Ok ([a], [b])
  | _ => Err ValueError
  end.

(** [for key, value in self._defaults: ...]: iterating a dict yields its
    keys. *)
Fixpoint defaults_loop (ks : list str) (root : element) : result element :=
  match ks with
  | [] => Ok root
  | x :: ks' =>
      kv <- unpack_pair x ;;
      let node := new_element (clark CT (lit "Default")) NS in
      let node := set_attr node (lit "Extension") (fst kv) in
      let node := set_attr node (lit "ContentType") (snd kv) in
      defaults_loop ks' (append_child root node)
  end.

(** [for key, value in self._overrides.items(): ...] *)
Fixpoint overrides_loop (items : list (str * str)) (root : element)
  : element :=
  match items with
  | [] => root
  | (key, value) :: items' =>
      let node := new_element (clark CT (lit "Override")) NS in
      let node := set_attr node (lit "PartName") key in
      let node := set_attr node (lit "ContentType") value in
      overrides_loop items' (append_child root node)
  end.

(** The tree [write_xml_data] hands to [etree.tostring]. *)
Definition types_doc (self : t) : result element :=
  root <- defaults_loop (keys (_defaults self)) types_root ;;
  Ok (overrides_loop (_overrides self) root).

Definition write_xml_data `{XmlLib} (self : t) : result bytes :=
  doc <- types_doc self ;;
  Ok (tostring doc).

Definition add_content (self : t) (part_name content_type : str) : t :=
  {| _defaults := _defaults self;
     _overrides := setitem (_overrides self) part_name content_type |}.

End ContentTypes.

(** [PackagePart = collections.namedtuple("PackagePart",
    ["uri", "content_type", "data"])] *)
Record PackagePart : Type := mkPackagePart {
  uri : str;
  content_type : str;
  data : bytes
}.

(** ** Generators

    A finite run of a generator: the values it yields, ended by
    [StopIteration] or by an exception raised in its body. *)
Inductive gen (A : Type) : Type :=
| Stop
| Yield (a : A) (rest : gen A)
| Raise (e : exn).
Arguments Stop {A}.
Arguments Yield {A} a rest.
Arguments Raise {A} e.

Fixpoint yielded {A} (g : gen A) : list A :=
  match g with
  | Yield a rest => a :: yielded rest
  | _ => []
  end.

Fixpoint raised {A} (g : gen A) : option exn :=
  match g with
  | Stop => None
  | Yield _ rest => raised rest
  | Raise e => Some e
  end.

(** [for x in g: s = body(x, s)]: the state after the loop, and the
    exception that ended it, if one did. *)
Fixpoint for_each {A S} (g : gen A) (body : A -> S -> S) (s : S)
  : S * option exn :=
  match g with
  | Stop => (s, None)
  | Yield a rest => for_each rest body (body a s)
  | Raise e => (s, Some e)
  end.

(** ** find_packages *)
Section Parser.
Context `{XmlLib} `{Base64Lib}.

Definition pkg : str :=
  lit "http://schemas.microsoft.com/office/2006/xmlPackage".

(** Lines 74-78: the bytes of the document. *)
Definition read_source (fs : filesystem) (flat_path : str) : result bytes :=
  if path_exists fs flat_path then read_file fs flat_path
  else encode_utf8 flat_path.

(** Lines 80-87: [str(e)] of an [XMLSyntaxError] is its message. *)
Definition parse (content : bytes) : result element :=
  match fromstring false content with
  | Ok tree => Ok tree
  | Err (XMLSyntaxError msg) =>
      if contains msg (lit "huge text node") then fromstring true content
      else Err (XMLSyntaxError msg)
  | Err e => Err e
  end.

(** Lines 93-100: the first child of the part's first child, serialized. *)
Definition xml_data (part : element) : result bytes :=
  wrapper <- index0 (children part) ;;
  payload <- index0 (children wrapper) ;;
  Ok (tostring payload).

(** Line 103: [list(filter(lambda char: char not in ["\n", "\r"], chunks))];
    iterating [None] raises [TypeError]. *)
Definition strip_line_breaks (chunks : str) : str :=
  filter (fun char => negb (char_in char [LF; CR])) chunks.

(** Lines 102-104: the text of the part's first child, decoded. *)
Definition binary_data (part : element) : result bytes :=
  wrapper <- index0 (children part) ;;
  match text wrapper with
  | None => Err TypeError
  | Some chunks =>
      let encoded := strip_line_breaks chunks in
      raw <- encode_utf8 encoded ;;
      b64decode raw
  end.

(** Lines 90-105: the body of the loop over the part elements. *)
Definition package_part (part : element) : result PackagePart :=
  uri <- getitem (attrib part) (clark pkg (lit "name")) ;;
  content_type <- getitem (attrib part) (clark pkg (lit "contentType")) ;;
  data <- (if endswith content_type (lit "xml") then xml_data part
           else binary_data part) ;;
  Ok (mkPackagePart uri content_type data).

Fixpoint yield_parts (parts : list element) : gen PackagePart :=
  match parts with
  | [] => Stop
  | part :: parts' =>
      match package_part part with
      | Ok p => Yield p (yield_parts parts')
      | Err e => Raise e
      end
  end.

(** The generator runs when it is first advanced: reading and parsing
    happen then, against the file system of that moment.  After that it
    works on the parsed tree alone, so what the consumer does between two
    parts does not change the parts that follow. *)
Definition find_packages (fs : filesystem) (flat_path : str)
  : gen PackagePart :=
  match read_source fs flat_path with
  | Err e => Raise e
  | Ok content =>
      match parse content with
      | Err e => Raise e
      | Ok tree => yield_parts (xpath_all tree pkg (lit "part"))
      end
  end.

End Parser.

(** ** flat_to_opc and flat_to_opc_bytes *)
Section Assembler.
Context `{XmlLib} `{Base64Lib} `{ZipLib}.

(** [f.writestr(name, data)] *)
Definition writestr (f : list entry) (name : str) (data : bytes)
  : list entry :=
  f ++ [(name, data)].

Definition manifest_name : str := lit "[Content_Types].xml".

(** The destination is opened before the generator is first advanced, and
    the [with] block closes the archive on every way out. *)
Definition flat_to_opc (fs : filesystem) (src_path dest_path : str)
  : filesystem * result unit :=
  let content_types := ContentTypes.init in
  match open_w fs dest_path with
  | Err e => (fs, Err e)
  | Ok fs1 =>
      match
        for_each (find_packages fs1 src_path)
          (fun file '(content_types, f) =>
             (ContentTypes.add_content content_types
                (uri file) (content_type file),
              writestr f (slice_from 1 (uri file)) (data file)))
          (content_types, [])
      with
      | ((_, f), Some e) => (write_file fs1 dest_path (zip_image f), Err e)
      | ((content_types, f), None) =>
          match ContentTypes.write_xml_data content_types with
          | Err e => (write_file fs1 dest_path (zip_image f), Err e)
          | Ok manifest =>
              (write_file fs1 dest_path
                 (zip_image (writestr f manifest_name manifest)),
               Ok tt)
          end
      end
  end.

Definition flat_to_opc_bytes (fs : filesystem) (src_path : str)
  : result bytes :=
  let content_types := ContentTypes.init in
  let zip_buffer : list entry := [] in
  match
    for_each (find_packages fs src_path)
      (fun file '(content_types, f) =>
         (ContentTypes.add_content content_types
            (uri file) (content_type file),
          writestr f (slice_from 1 (uri file)) (data file)))
      (content_types, zip_buffer)
  with
  | (_, Some e) => Err e
  | ((content_types, f), None) =>
      manifest <- ContentTypes.write_xml_data content_types ;;
      Ok (zip_image (writestr f manifest_name manifest))
  end.

End Assembler.

(** ** Running the model

    Instances of the three library interfaces on which the definitions
    above can be evaluated.  The decoder follows the non-strict mode of
    CPython's [binascii.a2b_base64], which is what [base64.b64decode] calls.
    The XML and ZIP instances are small stand-ins: a parser that knows three
    documents and rejects everything else, a serializer that writes names in
    Clark notation, and an archive image that lays the entries end to end.
    The theorems below hold for every instance; these are only used to
    evaluate the code on concrete inputs. *)
Module Demo.

Definition b64_digit (c : N) : option N :=
  if (65 <=? c) && (c <=? 90) then Some (c - 65)
  else if (97 <=? c) && (c <=? 122) then Some (c - 71)
  else if (48 <=? c) && (c <=? 57) then Some (c + 4)
  else if c =? 43 then Some 62
  else if c =? 47 then Some 63
  else None.

Fixpoint a2b_base64 (ascii : bytes) (quad_pos leftchar pads : N)
         (bin : bytes) : result bytes :=
  match ascii with
  | [] => if quad_pos =? 0 then Ok bin else Err BinasciiError
  | b :: rest =>
      let this_ch := Byte.to_N b in
      if this_ch =? 61 then
        if 2 <=? quad_pos then
          if 4 <=? quad_pos + (pads + 1) then Ok bin
          else a2b_base64 rest quad_pos leftchar (pads + 1) bin
        else a2b_base64 rest quad_pos leftchar pads bin
      else
        match b64_digit this_ch with
        | None => a2b_base64 rest quad_pos leftchar pads bin
        | Some d =>
            match quad_pos with
            | 0 => a2b_base64 rest 1 d 0 bin
            | 1 =>
                a2b_base64 rest 2 (N.land d 0x0f) 0
                  (bin ++ [byte_of_N
                             (N.lor (N.shiftl leftchar 2) (N.shiftr d 4))])
            | 2 =>
                a2b_base64 rest 3 (N.land d 0x03) 0
                  (bin ++ [byte_of_N
                             (N.lor (N.shiftl leftchar 4) (N.shiftr d 2))])
            | _ =>
                a2b_base64 rest 0 0 0
                  (bin ++ [byte_of_N (N.lor (N.shiftl leftchar 6) d)])
            end
        end
  end.

#[export] Instance base64 : Base64Lib :=
  {| b64decode := fun s => a2b_base64 s 0 0 0 [] |}.

Definition ascii_bytes (s : string) : bytes :=
  List.map (fun c => byte_of_N (N_of_ascii c)) (list_ascii_of_string s).

Definition bytes_eqb (a b : bytes) : bool :=
  str_eqb (List.map Byte.to_N a) (List.map Byte.to_N b).

(** The scenario document: one XML part and one binary part whose base64
    text has a line break in it. *)
Definition w_ns : str :=
  lit "http://schemas.openxmlformats.org/wordprocessingml/2006/main".

Definition document_ct : str :=
  lit "application/vnd.openxmlformats-officedocument.wordprocessingml.document.main+xml".

Definition flat_text : bytes :=
  ascii_bytes "<pkg:package xmlns:pkg='http://schemas.microsoft.com/office/2006/xmlPackage'>"
  ++ ascii_bytes "<pkg:part pkg:name='/word/document.xml' pkg:contentType='application/vnd.openxmlformats-officedocument.wordprocessingml.document.main+xml'>"
  ++ ascii_bytes "<pkg:xmlData><w:document xmlns:w='http://schemas.openxmlformats.org/wordprocessingml/2006/main'/></pkg:xmlData></pkg:part>"
  ++ ascii_bytes "<pkg:part pkg:name='/word/media/image1.png' pkg:contentType='image/png'>"
  ++ ascii_bytes "<pkg:binaryData>iVBO" ++ [byte_of_N LF]
  ++ ascii_bytes "Rw0KGgo=</pkg:binaryData></pkg:part></pkg:package>".

Definition w_document : element :=
  Element (QName (clark w_ns (lit "document"))) [(Some (lit "w"), w_ns)]
          [] None [] None.

Definition document_part : element :=
  Element (QName (clark pkg (lit "part"))) []
    [(clark pkg (lit "name"), lit "/word/document.xml");
     (clark pkg (lit "contentType"), document_ct)]
    None
    [Element (QName (clark pkg (lit "xmlData"))) [] [] None
             [w_document] None]
    None.

Definition image_part : element :=
  Element (QName (clark pkg (lit "part"))) []
    [(clark pkg (lit "name"), lit "/word/media/image1.png");
     (clark pkg (lit "contentType"), lit "image/png")]
    None
    [Element (QName (clark pkg (lit "binaryData"))) [] []
             (Some (lit "iVBO" ++ [LF] ++ lit "Rw0KGgo=")) [] None]
    None.

Definition flat_tree : element :=
  Element (QName (clark pkg (lit "package"))) [(Some (lit "pkg"), pkg)]
          [] None [document_part; image_part] None.

(** A document whose part names do not start with a slash: one is
    relative, one is empty. *)
Definition odd_text : bytes :=
  ascii_bytes "<pkg:package xmlns:pkg='http://schemas.microsoft.com/office/2006/xmlPackage'>"
  ++ ascii_bytes "<pkg:part pkg:name='media/a.bin' pkg:contentType='application/octet-stream'>"
  ++ ascii_bytes "<pkg:binaryData>QUJD</pkg:binaryData></pkg:part>"
  ++ ascii_bytes "<pkg:part pkg:name='' pkg:contentType='application/octet-stream'>"
  ++ ascii_bytes "<pkg:binaryData>REVG</pkg:binaryData></pkg:part></pkg:package>".

Definition binary_part (name b64 : str) : element :=
  Element (QName (clark pkg (lit "part"))) []
    [(clark pkg (lit "name"), name);
     (clark pkg (lit "contentType"), lit "application/octet-stream")]
    None
    [Element (QName (clark pkg (lit "binaryData"))) [] []
             (Some b64) [] None]
    None.

Definition odd_tree : element :=
  Element (QName (clark pkg (lit "package"))) [(Some (lit "pkg"), pkg)]
          [] None
          [binary_part (lit "media/a.bin") (lit "QUJD");
           binary_part [] (lit "REVG")]
          None.

(** A part whose content type has [xml] in it but not at the end, with
    both a text and an element under its first child. *)
Definition xmlish_part : element :=
  Element (QName (clark pkg (lit "part"))) []
    [(clark pkg (lit "name"), lit "/customXml/item1.bin");
     (clark pkg (lit "contentType"), lit "application/xmlish")]
    None
    [Element (QName (clark pkg (lit "binaryData"))) [] []
             (Some (lit "QUJD"))
             [Element (QName (lit "x")) [] [] (Some (lit "REVG")) [] None]
             None]
    None.

(** A second document, which the default parser refuses for the size of a
    text node and the [huge_tree] parser accepts. *)
Definition huge_text : bytes := ascii_bytes "<huge/>".
Definition huge_tree : element :=
  Element (QName (lit "huge")) [] [] None [] None.

Definition demo_fromstring (huge : bool) (content : bytes)
  : result element :=
  if bytes_eqb content flat_text then Ok flat_tree
  else if bytes_eqb content odd_text then Ok odd_tree
  else if bytes_eqb content huge_text then
    if huge then Ok huge_tree
    else Err (XMLSyntaxError
                (lit "xmlSAX2Characters: huge text node, line 1, column 10000008"))
  else
    match content with
    | [] => Err (XMLSyntaxError (lit "Document is empty, line 1, column 1"))
    | _ => Err (XMLSyntaxError
                  (lit "Start tag expected, '<' not found, line 1, column 1"))
    end.

Definition render_attr (kv : str * str) : str :=
  lit " " ++ fst kv ++ lit "='" ++ snd kv ++ lit "'".

Definition text_or_empty (x : option str) : str :=
  match x with Some s => s | None => [] end.

Fixpoint render (e : element) : str :=
  match e with
  | Element (QName name) _ a x cs _ =>
      lit "<" ++ name ++ flat_map render_attr a ++ lit ">"
      ++ text_or_empty x ++ flat_map render cs
      ++ lit "</" ++ name ++ lit ">"
  | Element Comment _ _ x _ _ => lit "<!--" ++ text_or_empty x ++ lit "-->"
  | Element ProcessingInstruction _ _ x _ _ =>
      lit "<?" ++ text_or_empty x ++ lit "?>"
  end.

Definition demo_tostring (e : element) : bytes :=
  match
    encode_utf8
      (lit "<?xml version='1.0' encoding='UTF-8' standalone='yes'?>"
       ++ [LF] ++ render e)
  with
  | Ok b => b
  | Err _ => []
  end.

#[export] Instance xml : XmlLib :=
  {| fromstring := demo_fromstring; tostring := demo_tostring |}.

Definition demo_zip_image (es : list entry) : bytes :=
  flat_map
    (fun e : entry =>
       ascii_bytes "PK" ++ List.map byte_of_N (fst e) ++ [Byte.x00]
       ++ [byte_of_N (N.of_nat (List.length (snd e)))] ++ snd e)
    es.

#[export] Instance zip : ZipLib := {| zip_image := demo_zip_image |}.

(** A file system with the three documents and a directory. *)
Definition fs : filesystem :=
  fun p =>
    if str_eqb p (lit "flat.xml") then Some (File flat_text)
    else if str_eqb p (lit "odd.xml") then Some (File odd_text)
    else if str_eqb p (lit "huge.xml") then Some (File huge_text)
    else if str_eqb p (lit "out") then Some Dir
    else None.

Definition png_magic : bytes :=
  List.map byte_of_N [0x89; 0x50; 0x4E; 0x47; 0x0D; 0x0A; 0x1A; 0x0A].


End Demo.

(** ** Documents that go wrong

    A second file system and parser table for the failure paths: a document
    whose second part has no content type, and part elements that lack what
    the loop body reaches for.  The decoder, the serializer and the archive
    image are those of [Demo]. *)
Module Cases.

(** [<pkg:part pkg:name='/word/styles.xml'>...</pkg:part>]: no contentType. *)
Definition untyped_part : element :=
Element (QName (clark pkg (lit "part"))) []
  [(clark pkg (lit "name"), lit "/word/styles.xml")]
  None
  [Element (QName (clark pkg (lit "xmlData"))) [] [] None
           [Demo.w_document] None]
  None.

(** A part element without attributes. *)
Definition unnamed_part : element :=
Element (QName (clark pkg (lit "part"))) [] [] None
  [Element (QName (clark pkg (lit "binaryData"))) [] []
           (Some (lit "QUJD")) [] None]
  None.

(** [<pkg:part .../>]: no child at all. *)
Definition childless_part (ct : str) : element :=
Element (QName (clark pkg (lit "part"))) []
  [(clark pkg (lit "name"), lit "/empty");
   (clark pkg (lit "contentType"), ct)]
  None [] None.

(** A part whose first child is empty: [<pkg:xmlData/>] or
    [<pkg:binaryData/>], whose text lxml gives as [None]. *)
Definition hollow_part (ct wrapper : str) : element :=
Element (QName (clark pkg (lit "part"))) []
  [(clark pkg (lit "name"), lit "/hollow");
   (clark pkg (lit "contentType"), ct)]
  None
  [Element (QName (clark pkg wrapper)) [] [] None [] None]
  None.

Definition broken_text : bytes :=
Demo.ascii_bytes "<pkg:package xmlns:pkg='http://schemas.microsoft.com/office/2006/xmlPackage'>"
++ Demo.ascii_bytes "<pkg:part pkg:name='/word/document.xml' pkg:contentType='application/vnd.openxmlformats-officedocument.wordprocessingml.document.main+xml'>"
++ Demo.ascii_bytes "<pkg:xmlData><w:document xmlns:w='http://schemas.openxmlformats.org/wordprocessingml/2006/main'/></pkg:xmlData></pkg:part>"
++ Demo.ascii_bytes "<pkg:part pkg:name='/word/styles.xml'>"
++ Demo.ascii_bytes "<pkg:xmlData><w:document xmlns:w='http://schemas.openxmlformats.org/wordprocessingml/2006/main'/></pkg:xmlData></pkg:part>"
++ Demo.ascii_bytes "<pkg:part pkg:name='/word/media/image1.png' pkg:contentType='image/png'>"
++ Demo.ascii_bytes "<pkg:binaryData>iVBORw0KGgo=</pkg:binaryData></pkg:part></pkg:package>".

Definition broken_tree : element :=
Element (QName (clark pkg (lit "package"))) [(Some (lit "pkg"), pkg)]
        [] None
        [Demo.document_part; untyped_part;
         Demo.binary_part (lit "/word/media/image1.png") (lit "iVBORw0KGgo=")]
        None.

Definition cases_fromstring (huge : bool) (content : bytes)
  : result element :=
if Demo.bytes_eqb content broken_text then Ok broken_tree
else Demo.demo_fromstring huge content.

#[export] Instance xml : XmlLib :=
  {| fromstring := cases_fromstring; tostring := Demo.demo_tostring |}.

Definition fs : filesystem :=
fun p =>
  if str_eqb p (lit "broken.xml") then Some (File broken_text)
  else if str_eqb p (lit "old.docx") then
    Some (File (Demo.ascii_bytes "an earlier archive"))
  else Demo.fs p.

(** The scenario document as a string. *)
Definition flat_string : str := List.map Byte.to_N Demo.flat_text.

End Cases.

(** Equality of strings is decidable. *)
Definition str_eq_dec : forall a b : str, {a = b} + {a <> b} :=
  list_eq_dec N.eq_dec.

(** ** Vocabulary of the statements *)

(** The archive entry written for a part (lines 121 and 140). *)
Definition part_entry (p : PackagePart) : entry :=
  (slice_from 1 (uri p), data p).

(** The registry after [add_content] was called for each part in turn. *)
Definition registry (ps : list PackagePart) : ContentTypes.t :=
  fold_left
    (fun ct p => ContentTypes.add_content ct (uri p) (content_type p))
    ps ContentTypes.init.

(** The tree of the manifest written after the parts [ps]. *)
Definition manifest_doc (ps : list PackagePart) : element :=
  ContentTypes.overrides_loop
    (ContentTypes._overrides (registry ps)) ContentTypes.types_root.

(** The content type of the last part of [ps] that has uri [u]. *)
Definition last_registered (ps : list PackagePart) (u : str) : option str :=
  match find (fun q => str_eqb (uri q) u) (rev ps) with
  | Some q => Some (content_type q)
  | None => None
  end.

(** The [Override] child that line 41-45 builds for one item. *)
Definition override_element (part_name ct : str) : element :=
  set_attr
    (set_attr
       (new_element (clark ContentTypes.CT (lit "Override")) ContentTypes.NS)
       (lit "PartName") part_name)
    (lit "ContentType") ct.

(** The [Default] child that lines 34-38 build for one pair. *)
Definition default_element (extension ct : str) : element :=
  set_attr
    (set_attr
       (new_element (clark ContentTypes.CT (lit "Default")) ContentTypes.NS)
       (lit "Extension") extension)
    (lit "ContentType") ct.

(** An [Override] element whose [PartName] is [u]. *)
Definition is_override_for (u : str) (e : element) : bool :=
  tag_eqb (tag_of e) (clark ContentTypes.CT (lit "Override"))
  && match get (attrib e) (lit "PartName") with
     | Some name => str_eqb name u
     | None => false
     end.


(** * Properties *)

(** ** Strings *)

Lemma str_eqb_eq (a b : str) : str_eqb a b = true <-> a = b.
Proof.
  revert b; induction a as [|x a IH]; intros [|y b]; simpl;
    try (split; [discriminate | congruence]); try tauto.
  rewrite andb_true_iff, N.eqb_eq, IH.
  split; [intros [-> ->]; reflexivity | intros [= -> ->]; auto].
Qed.

Lemma str_eqb_refl (a : str) : str_eqb a a = true.
Proof. apply str_eqb_eq; reflexivity. Qed.

Lemma str_eqb_neq (a b : str) : str_eqb a b = false <-> a <> b.
Proof.
  rewrite <- str_eqb_eq. destruct (str_eqb a b); split; congruence.
Qed.


(** [endswith] is a plain suffix test. *)
Lemma endswith_spec (s suffix : str) :
  endswith s suffix = true <-> exists front, s = front ++ suffix.
Proof.
  unfold endswith. rewrite andb_true_iff, Nat.leb_le, str_eqb_eq. split.
  - intros [_ Hs].
    exists (firstn (List.length s - List.length suffix) s).
    rewrite <- (firstn_skipn (List.length s - List.length suffix) s) at 1.
    rewrite Hs. reflexivity.
  - intros [front ->]. rewrite length_app. split; [lia|].
    replace (List.length front + List.length suffix - List.length suffix)%nat
      with (List.length front + 0)%nat by lia.
    rewrite skipn_app, Nat.add_0_r, skipn_all.
    replace (List.length front - List.length front)%nat with 0%nat by lia.
    reflexivity.
Qed.


(** ** Generators and the [for] loop *)

Lemma for_each_fold {A S} (g : gen A) (body : A -> S -> S) (s : S) :
  for_each g body s
  = (fold_left (fun s a => body a s) (yielded g) s, raised g).
Proof.
  revert s; induction g as [|a rest IH|e]; intros s; simpl; auto.
Qed.

(** ** Dictionaries *)

Lemma get_setitem_same {V} (d : dict V) k v : get (setitem d k v) k = Some v.
Proof.
  induction d as [|[k' v'] d IH]; simpl.
  - rewrite str_eqb_refl; reflexivity.
  - destruct (str_eqb k' k) eqn:E; simpl; rewrite E; auto.
Qed.

Lemma get_setitem_other {V} (d : dict V) k v k' :
  k <> k' -> get (setitem d k v) k' = get d k'.
Proof.
  intros Hne. induction d as [|[k0 v0] d IH]; simpl.
  - apply str_eqb_neq in Hne. rewrite Hne; reflexivity.
  - destruct (str_eqb k0 k) eqn:E; simpl.
    + apply str_eqb_eq in E; subst k0.
      apply str_eqb_neq in Hne. rewrite Hne; reflexivity.
    + destruct (str_eqb k0 k'); auto.
Qed.

Lemma keys_setitem_in {V} (d : dict V) k v k' :
  In k' (keys (setitem d k v)) -> k' = k \/ In k' (keys d).
Proof.
  induction d as [|[k0 v0] d IH]; simpl.
  - intros [<- | []]; auto.
  - destruct (str_eqb k0 k); simpl; intros [<- | Hin]; auto.
    destruct (IH Hin); auto.
Qed.

(** Assignment keeps the keys of a dict distinct. *)
Lemma keys_setitem_NoDup {V} (d : dict V) k v :
  NoDup (keys d) -> NoDup (keys (setitem d k v)).
Proof.
  induction d as [|[k0 v0] d IH]; simpl; intros Hnd.
  - constructor; [intros [] | constructor].
  - inversion Hnd as [|? ? Hnotin Hnd']; subst.
    destruct (str_eqb k0 k) eqn:E; simpl.
    + constructor; assumption.
    + constructor; [|auto].
      intros Hin. apply keys_setitem_in in Hin as [-> | Hin]; [|auto].
      rewrite str_eqb_refl in E; discriminate.
Qed.

Lemma get_None_not_in {V} (d : dict V) k :
  get d k = None -> ~ In k (keys d).
Proof.
  induction d as [|[k0 v0] d IH]; simpl; [tauto|].
  destruct (str_eqb k0 k) eqn:E; [discriminate|].
  intros Hg [-> | Hin]; [|exact (IH Hg Hin)].
  rewrite str_eqb_refl in E; discriminate.
Qed.

(** ** The registry *)

Lemma registry_snoc ps p :
  registry (ps ++ [p])
  = ContentTypes.add_content (registry ps) (uri p) (content_type p).
Proof. unfold registry. rewrite fold_left_app. reflexivity. Qed.

(** Nothing in the module fills the defaults map. *)
Lemma registry_defaults ps : ContentTypes._defaults (registry ps) = [].
Proof.
  induction ps as [|p ps IH] using rev_ind; [reflexivity|].
  rewrite registry_snoc. exact IH.
Qed.

Lemma registry_keys_NoDup ps :
  NoDup (keys (ContentTypes._overrides (registry ps))).
Proof.
  induction ps as [|p ps IH] using rev_ind; [constructor|].
  rewrite registry_snoc. apply keys_setitem_NoDup, IH.
Qed.

(** Looking a uri up in the registry gives the content type registered
    last for it. *)
Lemma registry_get ps u :
  get (ContentTypes._overrides (registry ps)) u = last_registered ps u.
Proof.
  induction ps as [|p ps IH] using rev_ind; [reflexivity|].
  rewrite registry_snoc. unfold last_registered in *.
  rewrite rev_app_distr. simpl.
  destruct (str_eqb (uri p) u) eqn:E.
  - apply str_eqb_eq in E; subst u. apply get_setitem_same.
  - rewrite get_setitem_other by (apply str_eqb_neq; exact E). exact IH.
Qed.

Lemma last_registered_in ps p :
  In p ps -> exists ct, last_registered ps (uri p) = Some ct.
Proof.
  intros Hin. unfold last_registered.
  destruct (find (fun q => str_eqb (uri q) (uri p)) (rev ps)) eqn:E; eauto.
  exfalso. apply in_rev in Hin.
  pose proof (find_none _ _ E p Hin) as Hf. cbv beta in Hf.
  rewrite str_eqb_refl in Hf. discriminate.
Qed.

Lemma last_registered_last front p back :
  (forall q, In q back -> uri q <> uri p) ->
  last_registered (front ++ p :: back) (uri p) = Some (content_type p).
Proof.
  intros Hback. unfold last_registered.
  rewrite rev_app_distr. simpl. rewrite <- app_assoc. simpl.
  assert (Hnone : forall l,
             (forall q, In q l -> uri q <> uri p) ->
             forall rest,
               find (fun q => str_eqb (uri q) (uri p)) (l ++ rest)
               = find (fun q => str_eqb (uri q) (uri p)) rest).
  { induction l as [|q l IH]; intros Hl rest; simpl; [reflexivity|].
    destruct (str_eqb (uri q) (uri p)) eqn:E.
    - apply str_eqb_eq in E. exfalso. apply (Hl q); simpl; auto.
    - apply IH. intros q' Hq'. apply Hl; simpl; auto. }
  rewrite Hnone.
  - simpl. rewrite str_eqb_refl. reflexivity.
  - intros q Hq. apply Hback. apply in_rev. exact Hq.
Qed.

(** ** The manifest tree *)

Lemma overrides_loop_children items root :
  children (ContentTypes.overrides_loop items root)
  = children root
    ++ List.map (fun kv => override_element (fst kv) (snd kv)) items.
Proof.
  revert root; induction items as [|[k v] items IH]; intros root; simpl.
  - rewrite app_nil_r; reflexivity.
  - rewrite IH. destruct root; simpl. rewrite <- app_assoc. reflexivity.
Qed.

Lemma is_override_for_override u k v :
  is_override_for u (override_element k v) = str_eqb k u.
Proof.
  unfold is_override_for, override_element, new_element, set_attr.
  cbn [tag_of attrib tag_eqb]. rewrite str_eqb_refl.
  change (setitem (setitem [] (lit "PartName") k) (lit "ContentType") v)
    with [(lit "PartName", k); (lit "ContentType", v)].
  cbn [get]. rewrite str_eqb_refl. reflexivity.
Qed.

(** Among the [Override] children built from a dict, exactly the item of
    key [u] is an [Override] for [u]. *)
Lemma overrides_filter (d : dict str) u :
  NoDup (keys d) ->
  filter (is_override_for u)
         (List.map (fun kv => override_element (fst kv) (snd kv)) d)
  = match get d u with
    | Some v => [override_element u v]
    | None => []
    end.
Proof.
  induction d as [|[k v] d IH]; simpl; intros Hnd; [reflexivity|].
  inversion Hnd as [|? ? Hnotin Hnd']; subst.
  rewrite is_override_for_override.
  destruct (str_eqb k u) eqn:E.
  - apply str_eqb_eq in E; subst k. rewrite IH by assumption.
    destruct (get d u) eqn:G; [|reflexivity].
    exfalso. apply Hnotin. clear - G.
    induction d as [|[k0 v0] d IH]; simpl in *; [discriminate|].
    destruct (str_eqb k0 u) eqn:E; [apply str_eqb_eq in E; auto | auto].
  - apply IH; assumption.
Qed.

Lemma types_doc_registry ps :
  ContentTypes.types_doc (registry ps) = Ok (manifest_doc ps).
Proof.
  unfold ContentTypes.types_doc. rewrite registry_defaults. reflexivity.
Qed.

Lemma manifest_doc_children ps :
  children (manifest_doc ps)
  = List.map (fun kv => override_element (fst kv) (snd kv))
             (ContentTypes._overrides (registry ps)).
Proof. unfold manifest_doc. apply overrides_loop_children. Qed.

(** ** The parser *)
Section ParserFacts.
Context `{XmlLib} `{Base64Lib}.





End ParserFacts.

(** ** The two entry points *)
Section AssemblerFacts.
Context `{XmlLib} `{Base64Lib} `{ZipLib}.

(** The state of the loop of lines 119-121 and 138-140 after the parts
    [ps]. *)
Lemma loop_state ps (content_types : ContentTypes.t) (f : list entry) :
  fold_left
    (fun s file =>
       (fun file '(content_types, f) =>
          (ContentTypes.add_content content_types
             (uri file) (content_type file),
           writestr f (slice_from 1 (uri file)) (data file)))
         file s)
    ps (content_types, f)
  = (fold_left
       (fun ct p => ContentTypes.add_content ct (uri p) (content_type p))
       ps content_types,
     f ++ List.map part_entry ps).
Proof.
  revert content_types f; induction ps as [|p ps IH]; intros ct f; simpl.
  - rewrite app_nil_r; reflexivity.
  - rewrite IH. unfold writestr, part_entry at 2.
    rewrite <- app_assoc. reflexivity.
Qed.

Lemma flat_to_opc_bytes_run fs src_path :
  flat_to_opc_bytes fs src_path
  = match raised (find_packages fs src_path) with
    | Some e => Err e
    | None =>
        Ok (zip_image
              (List.map part_entry (yielded (find_packages fs src_path))
               ++ [(manifest_name,
                    tostring
                      (manifest_doc
                         (yielded (find_packages fs src_path))))]))
    end.
Proof.
  unfold flat_to_opc_bytes. rewrite for_each_fold, loop_state.
  destruct (raised (find_packages fs src_path)); [reflexivity|].
  fold (registry (yielded (find_packages fs src_path))).
  unfold ContentTypes.write_xml_data. rewrite types_doc_registry.
  reflexivity.
Qed.

Lemma flat_to_opc_run fs src_path dest_path :
  flat_to_opc fs src_path dest_path
  = match open_w fs dest_path with
    | Err e => (fs, Err e)
    | Ok fs1 =>
        match raised (find_packages fs1 src_path) with
        | Some e =>
            (write_file fs1 dest_path
               (zip_image
                  (List.map part_entry
                     (yielded (find_packages fs1 src_path)))),
             Err e)
        | None =>
            (write_file fs1 dest_path
               (zip_image
                  (List.map part_entry
                     (yielded (find_packages fs1 src_path))
                   ++ [(manifest_name,
                        tostring
                          (manifest_doc
                             (yielded (find_packages fs1 src_path))))])),
             Ok tt)
        end
    end.
Proof.
  unfold flat_to_opc. destruct (open_w fs dest_path) as [fs1|e];
    [|reflexivity].
  rewrite for_each_fold, loop_state.
  destruct (raised (find_packages fs1 src_path)); [reflexivity|].
  fold (registry (yielded (find_packages fs1 src_path))).
  unfold ContentTypes.write_xml_data. rewrite types_doc_registry.
  reflexivity.
Qed.


Lemma write_file_same fs path content :
  write_file fs path content path = Some (File content).
Proof. unfold write_file. rewrite str_eqb_refl. reflexivity. Qed.

End AssemblerFacts.


(** * The claims *)

Section ParserClaims.
Context `{XmlLib} `{Base64Lib}.


(** C7, as the code has it: a part takes the XML serialization branch
    exactly when its contentType ends with "xml", a plain suffix test;
    "application/foo+xml" ends with "xml", "application/xmlish" does not
    and takes the base64 branch like every other content type without
    the suffix. *)
Theorem xml_branch_iff_suffix part u ct :
  get (attrib part) (clark pkg (lit "name")) = Some u ->
  get (attrib part) (clark pkg (lit "contentType")) = Some ct ->
  ((exists front, ct = front ++ lit "xml") ->
   package_part part = (d <- xml_data part ;; Ok (mkPackagePart u ct d)))
  /\ ((forall front, ct <> front ++ lit "xml") ->
      package_part part
      = (d <- binary_data part ;; Ok (mkPackagePart u ct d)))
  /\ endswith (lit "application/foo+xml") (lit "xml") = true
  /\ endswith (lit "application/xmlish") (lit "xml") = false.
Proof.
  intros Hu Hct. unfold package_part, getitem. rewrite Hu, Hct.
  cbn [bind]. repeat split.
  - intros Hsuf. apply endswith_spec in Hsuf. rewrite Hsuf. reflexivity.
  - intros Hnot. destruct (endswith ct (lit "xml")) eqn:E; [|reflexivity].
    apply endswith_spec in E as [front ->]. exfalso. exact (Hnot front eq_refl).
Qed.


End ParserClaims.

Section ParserExamples.
#[local] Existing Instance Demo.xml.
#[local] Existing Instance Demo.base64.



(** "application/xmlish" does not end with "xml": a part of that content
    type goes through the base64 branch, and its data is not the
    serialization of the payload element. *)
Lemma xmlish_takes_the_base64_branch :
  endswith (lit "application/xmlish") (lit "xml") = false
  /\ package_part Demo.xmlish_part
     = Ok (mkPackagePart (lit "/customXml/item1.bin")
                         (lit "application/xmlish") (Demo.ascii_bytes "ABC"))
  /\ package_part Demo.xmlish_part
     <> (d <- xml_data Demo.xmlish_part ;;
         Ok (mkPackagePart (lit "/customXml/item1.bin")
                           (lit "application/xmlish") d)).
Proof.
  repeat split; try (vm_compute; reflexivity); vm_compute; discriminate.
Qed.

Lemma xml_branch_iff_suffix_witness :
  package_part Demo.document_part
  = (d <- xml_data Demo.document_part ;;
     Ok (mkPackagePart (lit "/word/document.xml") Demo.document_ct d)).
Proof.
  refine (proj1 (xml_branch_iff_suffix
                   Demo.document_part (lit "/word/document.xml")
                   Demo.document_ct _ _) _).
  - vm_compute; reflexivity.
  - vm_compute; reflexivity.
  - exists (lit "application/vnd.openxmlformats-officedocument.wordprocessingml.document.main+").
    vm_compute; reflexivity.
Defined.


End ParserExamples.

Section InputClaims.
Context `{XmlLib} `{Base64Lib}.



End InputClaims.

Section InputExamples.
#[local] Existing Instance Demo.xml.
#[local] Existing Instance Demo.base64.


(** The encoder on one, two, three and four byte characters, and on a
    lone surrogate. *)
Example encode_utf8_widths :
  encode_utf8 [0x41; 0xE9; 0x20AC; 0x1F600]
  = Ok (List.map byte_of_N
          [0x41; 0xC3; 0xA9; 0xE2; 0x82; 0xAC; 0xF0; 0x9F; 0x98; 0x80])
  /\ encode_utf8 [0xD800] = Err UnicodeEncodeError.
Proof. split; vm_compute; reflexivity. Qed.

(** A space and a tab in the payload text reach the decoder; the line
    breaks do not. *)
Example space_and_tab_reach_the_decoder :
  encode_utf8
    (strip_line_breaks (lit "QQ" ++ [32] ++ lit "=" ++ [9; LF; CR] ++ lit "="))
  = Ok (List.map byte_of_N [81; 81; 32; 61; 9; 61]).
Proof. vm_compute; reflexivity. Qed.

(** A string that names nothing on disk is the document itself; one that
    names a directory cannot be read. *)
Example read_source_cases :
  read_source Demo.fs (lit "flat.xml") = Ok Demo.flat_text
  /\ read_source Demo.fs (lit "<huge/>") = Ok Demo.huge_text
  /\ read_source Demo.fs (lit "out") = Err IsADirectoryError.
Proof. repeat split; vm_compute; reflexivity. Qed.

End InputExamples.

Section AssemblerClaims.
Context `{XmlLib} `{Base64Lib} `{ZipLib}.


(** C5: when every part element yields a part, the manifest written last
    has, for each part, exactly one Override element whose PartName is the
    part's uri (with its leading "/"); its ContentType is the content type
    of the last part registered under that uri, which is the part's own
    content type when no later part has the same uri. *)
Theorem manifest_overrides fs src_path p :
  raised (find_packages fs src_path) = None ->
  In p (yielded (find_packages fs src_path)) ->
  exists ct,
    flat_to_opc_bytes fs src_path
    = Ok (zip_image
            (List.map part_entry (yielded (find_packages fs src_path))
             ++ [(lit "[Content_Types].xml",
                  tostring
                    (manifest_doc (yielded (find_packages fs src_path))))]))
    /\ filter (is_override_for (uri p))
              (children (manifest_doc (yielded (find_packages fs src_path))))
       = [override_element (uri p) ct]
    /\ last_registered (yielded (find_packages fs src_path)) (uri p)
       = Some ct
    /\ (forall front back,
           yielded (find_packages fs src_path) = front ++ p :: back ->
           (forall q, In q back -> uri q <> uri p) ->
           ct = content_type p).
Proof.
  intros Hraised Hin.
  destruct (last_registered_in _ _ Hin) as [ct Hct].
  exists ct. split; [|split; [|split]].
  - rewrite flat_to_opc_bytes_run, Hraised. reflexivity.
  - rewrite manifest_doc_children.
    rewrite overrides_filter by apply registry_keys_NoDup.
    rewrite registry_get, Hct. reflexivity.
  - exact Hct.
  - intros front back Hsplit Hback. rewrite Hsplit in Hct.
    rewrite last_registered_last in Hct by assumption. congruence.
Qed.



End AssemblerClaims.

Section RegistryClaims.
Context `{XmlLib}.

(** A key of the defaults map that is not two characters long ends the
    serialization with [ValueError]. *)
Lemma defaults_key_not_a_pair k v d o :
  List.length k <> 2%nat ->
  ContentTypes.write_xml_data (ContentTypes.mk ((k, v) :: d) o)
  = Err ValueError.
Proof.
  intros Hlen. unfold ContentTypes.write_xml_data, ContentTypes.types_doc.
  cbn [ContentTypes._defaults keys List.map fst ContentTypes.defaults_loop].
  destruct k as [|a [|b [|c k]]]; try reflexivity.
  exfalso; apply Hlen; reflexivity.
Qed.

(** C2 fails on the code: with the defaults map {"png": "image/png"},
    write_xml_data raises ValueError and emits nothing, because the loop of
    lines 33-38 iterates the keys of the map and unpacks each key as a
    pair; with {"ab": "image/png"} it emits a Default element with
    Extension "a" and ContentType "b", not Extension "ab" and ContentType
    "image/png".  The loop over the overrides, which goes through the
    items, emits PartName and ContentType as claimed. *)
Theorem defaults_loop_unpacks_keys :
  ContentTypes.write_xml_data
    (ContentTypes.mk [(lit "png", lit "image/png")] [])
  = Err ValueError
  /\ ContentTypes.types_doc
       (ContentTypes.mk [(lit "ab", lit "image/png")] [])
     = Ok (append_child ContentTypes.types_root
                        (default_element (lit "a") (lit "b")))
  /\ default_element (lit "a") (lit "b")
     <> default_element (lit "ab") (lit "image/png")
  /\ ContentTypes.types_doc
       (ContentTypes.mk [] [(lit "/a.png", lit "image/png")])
     = Ok (append_child ContentTypes.types_root
                        (override_element (lit "/a.png") (lit "image/png"))).
Proof.
  split; [apply defaults_key_not_a_pair; vm_compute; discriminate|].
  split; [vm_compute; reflexivity|].
  split; [vm_compute; discriminate | vm_compute; reflexivity].
Qed.

End RegistryClaims.

Section AssemblerExamples.
#[local] Existing Instance Demo.xml.
#[local] Existing Instance Demo.base64.
#[local] Existing Instance Demo.zip.

Example scenario_yields :
  find_packages Demo.fs (lit "flat.xml")
  = Yield (mkPackagePart (lit "/word/document.xml") Demo.document_ct
                         (tostring Demo.w_document))
          (Yield (mkPackagePart (lit "/word/media/image1.png")
                                (lit "image/png") Demo.png_magic)
                 Stop).
Proof. vm_compute; reflexivity. Qed.


Lemma manifest_overrides_witness :
  filter (is_override_for (lit "/word/media/image1.png"))
         (children
            (manifest_doc (yielded (find_packages Demo.fs (lit "flat.xml")))))
  = [override_element (lit "/word/media/image1.png") (lit "image/png")].
Proof.
  destruct (manifest_overrides
              Demo.fs (lit "flat.xml")
              (mkPackagePart (lit "/word/media/image1.png") (lit "image/png")
                             Demo.png_magic))
    as [ct [_ [Hfilter [Hlast _]]]].
  - vm_compute; reflexivity.
  - vm_compute; auto.
  - cbn [uri] in Hfilter. rewrite Hfilter.
    vm_compute in Hlast. injection Hlast as <-. vm_compute; reflexivity.
Defined.

(** Two parts under one uri: one Override, with the content type of the
    second. *)
Example duplicate_uri_last_wins :
  children
    (manifest_doc
       [mkPackagePart (lit "/a") (lit "text/plain") [];
        mkPackagePart (lit "/b") (lit "image/png") [];
        mkPackagePart (lit "/a") (lit "image/gif") []])
  = [override_element (lit "/a") (lit "image/gif");
     override_element (lit "/b") (lit "image/png")].
Proof. vm_compute; reflexivity. Qed.




End AssemblerExamples.

(** * Further properties of the code *)

(** ** Helper facts *)

Lemma strip_line_breaks_insert front c back :
  c = LF \/ c = CR ->
  strip_line_breaks (front ++ c :: back) = strip_line_breaks (front ++ back).
Proof.
  intros Hc. unfold strip_line_breaks. rewrite !filter_app. cbn [filter].
  destruct Hc as [-> | ->]; reflexivity.
Qed.




Lemma encode_utf8_ascii s :
  Forall (fun c => c < 0x80) s ->
  encode_utf8 s = Ok (List.map byte_of_N s).
Proof.
  induction 1 as [|c s Hc _ IH]; cbn [encode_utf8 List.map]; [reflexivity|].
  unfold utf8_char. apply N.ltb_lt in Hc. rewrite Hc. cbn [bind].
  rewrite IH. reflexivity.
Qed.

Section ParserExtras.
Context `{XmlLib} `{Base64Lib}.

(** X1: the generator stops at the first part element whose processing
    raises: the parts of the elements before it have been yielded, in
    order, its exception ends the iteration, and the elements after it are
    never processed. *)
Theorem generator_stops_at_first_failure good bad rest ps e :
  Forall2 (fun part p => package_part part = Ok p) good ps ->
  package_part bad = Err e ->
  yielded (yield_parts (good ++ bad :: rest)) = ps
  /\ raised (yield_parts (good ++ bad :: rest)) = Some e.
Proof.
  intros Hgood Hbad.
  induction Hgood as [|part p good ps Hp _ IH]; cbn [app yield_parts].
  - rewrite Hbad. split; reflexivity.
  - rewrite Hp. cbn [yielded raised]. destruct IH as [-> ->].
    split; reflexivity.
Qed.

(** X2: a part element without the pkg:name attribute raises KeyError for
    that attribute, whatever else it has; one with pkg:name and without
    pkg:contentType raises KeyError for pkg:contentType.  No default is
    put in their place. *)
Theorem missing_attribute_is_a_KeyError part :
  (get (attrib part) (clark pkg (lit "name")) = None ->
   package_part part = Err (KeyError (clark pkg (lit "name"))))
  /\ (forall u,
         get (attrib part) (clark pkg (lit "name")) = Some u ->
         get (attrib part) (clark pkg (lit "contentType")) = None ->
         package_part part = Err (KeyError (clark pkg (lit "contentType")))).
Proof.
  unfold package_part, getitem. split.
  - intros ->. reflexivity.
  - intros u -> ->. reflexivity.
Qed.

(** X3: a part element that has no child raises IndexError, whatever its
    content type; so does a part of an XML content type whose first child
    has no child of its own. *)
Theorem part_without_payload_is_an_IndexError part u ct :
  get (attrib part) (clark pkg (lit "name")) = Some u ->
  get (attrib part) (clark pkg (lit "contentType")) = Some ct ->
  (children part = [] -> package_part part = Err IndexError)
  /\ (forall wrapper rest,
         children part = wrapper :: rest ->
         endswith ct (lit "xml") = true ->
         children wrapper = [] ->
         package_part part = Err IndexError).
Proof.
  intros Hu Hct. unfold package_part, getitem. rewrite Hu, Hct.
  cbn [bind]. split.
  - intros Hc. unfold xml_data, binary_data. rewrite Hc.
    destruct (endswith ct (lit "xml")); reflexivity.
  - intros wrapper rest Hc -> Hw. unfold xml_data. rewrite Hc.
    cbn [index0 bind]. rewrite Hw. reflexivity.
Qed.

(** X4: a part of a non-XML content type whose first child has no text
    (an empty pkg:binaryData element) raises TypeError; it does not yield a
    part with empty data. *)
Theorem empty_binary_payload_is_a_TypeError part u ct wrapper rest :
  get (attrib part) (clark pkg (lit "name")) = Some u ->
  get (attrib part) (clark pkg (lit "contentType")) = Some ct ->
  endswith ct (lit "xml") = false ->
  children part = wrapper :: rest ->
  text wrapper = None ->
  package_part part = Err TypeError
  /\ forall parts, yield_parts (part :: parts) = Raise TypeError.
Proof.
  intros Hu Hct Hx Hc Ht.
  assert (Hp : package_part part = Err TypeError).
  { unfold package_part, getitem. rewrite Hu, Hct. cbn [bind].
    rewrite Hx. unfold binary_data. rewrite Hc. cbn [index0 bind].
    rewrite Ht. reflexivity. }
  split; [exact Hp|]. intros parts. cbn [yield_parts]. rewrite Hp.
  reflexivity.
Qed.

(** X5: a line feed or carriage return inserted anywhere in the text of a
    part's first child does not change the part that is yielded, nor the
    exception that is raised. *)
Theorem inserted_line_break_changes_nothing
        t ns a x wt wns wa wcs wtl rest tl front c back :
  c = LF \/ c = CR ->
  package_part
    (Element t ns a x
       (Element wt wns wa (Some (front ++ c :: back)) wcs wtl :: rest) tl)
  = package_part
      (Element t ns a x
         (Element wt wns wa (Some (front ++ back)) wcs wtl :: rest) tl).
Proof.
  intros Hc. unfold package_part. cbn [attrib].
  destruct (getitem a (clark pkg (lit "name"))) as [u|e]; [|reflexivity].
  destruct (getitem a (clark pkg (lit "contentType"))) as [ct|e];
    [|reflexivity].
  cbn [bind]. destruct (endswith ct (lit "xml")).
  - reflexivity.
  - unfold binary_data. cbn [children index0 bind text].
    rewrite (strip_line_breaks_insert front c back Hc). reflexivity.
Qed.


(** X7: a document given as a string and the same document given as the
    path of a file that holds its UTF-8 encoding are parsed alike: the
    generator yields the same parts and ends the same way. *)
Theorem literal_and_file_sources_agree fs path literal content :
  fs path = Some (File content) ->
  fs literal = None ->
  encode_utf8 literal = Ok content ->
  find_packages fs path = find_packages fs literal.
Proof.
  intros Hfile Hnone Henc.
  unfold find_packages, read_source, path_exists, read_file.
  rewrite Hfile, Hnone, Henc. reflexivity.
Qed.


(** X9: a string of ASCII characters that names nothing on disk is parsed
    byte for byte: the bytes handed to the XML parser are its code
    points. *)
Theorem ascii_literal_is_read_verbatim fs literal :
  fs literal = None ->
  Forall (fun c => c < 0x80) literal ->
  read_source fs literal = Ok (List.map byte_of_N literal)
  /\ find_packages fs literal
     = match parse (List.map byte_of_N literal) with
       | Ok tree => yield_parts (xpath_all tree pkg (lit "part"))
       | Err e => Raise e
       end.
Proof.
  intros Hnone Hascii.
  assert (Hr : read_source fs literal = Ok (List.map byte_of_N literal)).
  { unfold read_source, path_exists. rewrite Hnone.
    apply encode_utf8_ascii, Hascii. }
  split; [exact Hr|]. unfold find_packages. rewrite Hr. reflexivity.
Qed.

End ParserExtras.

(** ** The registry and the manifest *)

Lemma setitem_setitem_same {V} (d : dict V) k v1 v2 :
  setitem (setitem d k v1) k v2 = setitem d k v2.
Proof.
  induction d as [|[k0 v0] d IH]; simpl.
  - rewrite str_eqb_refl. reflexivity.
  - destruct (str_eqb k0 k) eqn:E; simpl; rewrite E; [reflexivity|].
    rewrite IH. reflexivity.
Qed.

Lemma keys_setitem_cases {V} (d : dict V) k v :
  (In k (keys d) /\ keys (setitem d k v) = keys d)
  \/ (~ In k (keys d) /\ keys (setitem d k v) = keys d ++ [k]).
Proof.
  induction d as [|[k0 v0] d IH]; simpl.
  - right. split; [tauto | reflexivity].
  - destruct (str_eqb k0 k) eqn:E; simpl.
    + apply str_eqb_eq in E. left. split; [auto | reflexivity].
    + apply str_eqb_neq in E.
      destruct IH as [[Hin Hk] | [Hnot Hk]]; [left | right];
        (split; [tauto | rewrite Hk; reflexivity]).
Qed.

Lemma nodup_length_le {A} (dec : forall a b : A, {a = b} + {a <> b}) l :
  (List.length (nodup dec l) <= List.length l)%nat.
Proof.
  apply NoDup_incl_length; [apply NoDup_nodup|].
  intros a Ha. apply nodup_In in Ha. exact Ha.
Qed.

Lemma nodup_rev_length {A} (dec : forall a b : A, {a = b} + {a <> b}) l :
  List.length (nodup dec (rev l)) = List.length (nodup dec l).
Proof.
  apply Nat.le_antisymm; apply NoDup_incl_length;
    try apply NoDup_nodup; intros a Ha; apply nodup_In; apply nodup_In in Ha.
  - apply in_rev. exact Ha.
  - apply in_rev in Ha. exact Ha.
Qed.




Section RegistryExtras.
Context `{XmlLib}.

(** X10: registering a part name twice is registering it once with the
    second content type; a registered name looks up to the content type
    it was given, the other names keep theirs, and the defaults map is not
    touched. *)
Theorem add_content_overwrites self part_name ct1 ct2 :
  ContentTypes.add_content
    (ContentTypes.add_content self part_name ct1) part_name ct2
  = ContentTypes.add_content self part_name ct2
  /\ get (ContentTypes._overrides
            (ContentTypes.add_content self part_name ct2)) part_name
     = Some ct2
  /\ (forall other,
         part_name <> other ->
         get (ContentTypes._overrides
                (ContentTypes.add_content self part_name ct2)) other
         = get (ContentTypes._overrides self) other)
  /\ ContentTypes._defaults (ContentTypes.add_content self part_name ct2)
     = ContentTypes._defaults self.
Proof.
  unfold ContentTypes.add_content.
  cbn [ContentTypes._overrides ContentTypes._defaults].
  split; [rewrite setitem_setitem_same; reflexivity|].
  split; [apply get_setitem_same|].
  split; [intros other Hne; apply get_setitem_other; exact Hne|reflexivity].
Qed.

(** X11: the part names of the registry are the distinct uris of the
    parts, in the order in which each was first registered; so the manifest
    has one child per distinct uri, never more children than there are
    parts. *)
Theorem overrides_follow_first_registration ps :
  keys (ContentTypes._overrides (registry ps))
  = rev (nodup str_eq_dec (rev (List.map uri ps)))
  /\ List.length (children (manifest_doc ps))
     = List.length (nodup str_eq_dec (List.map uri ps))
  /\ (List.length (children (manifest_doc ps)) <= List.length ps)%nat.
Proof.
  assert (Hkeys : keys (ContentTypes._overrides (registry ps))
                  = rev (nodup str_eq_dec (rev (List.map uri ps)))).
  { induction ps as [|p ps IH] using rev_ind; [reflexivity|].
    rewrite registry_snoc, map_app, rev_app_distr.
    cbn [ContentTypes.add_content ContentTypes._overrides List.map rev app
         nodup].
    assert (Hiff : In (uri p) (keys (ContentTypes._overrides (registry ps)))
                   <-> In (uri p) (rev (List.map uri ps))).
    { rewrite IH, <- in_rev, nodup_In. reflexivity. }
    destruct (keys_setitem_cases
                (ContentTypes._overrides (registry ps)) (uri p)
                (content_type p)) as [[Hin ->] | [Hnot ->]];
      destruct (in_dec str_eq_dec (uri p) (rev (List.map uri ps)))
        as [Hin' | Hnot'].
    - exact IH.
    - exfalso. apply Hnot', Hiff, Hin.
    - exfalso. apply Hnot, Hiff, Hin'.
    - cbn [rev]. rewrite IH. reflexivity. }
  assert (Hlen : List.length (children (manifest_doc ps))
                 = List.length (nodup str_eq_dec (List.map uri ps))).
  { rewrite manifest_doc_children, length_map.
    rewrite <- (length_map fst). fold (keys (ContentTypes._overrides (registry ps))).
    rewrite Hkeys, length_rev. apply nodup_rev_length. }
  split; [exact Hkeys|]. split; [exact Hlen|].
  rewrite Hlen. rewrite <- (length_map uri ps). apply nodup_length_le.
Qed.



End RegistryExtras.

(** ** The entry points when something fails *)



Section AssemblerExtras.
Context `{XmlLib} `{Base64Lib} `{ZipLib}.

(** X14: when the generator raises after some parts, flat_to_opc raises
    the same exception and leaves at the destination the archive of the
    entries of the parts yielded until then, without the manifest entry;
    flat_to_opc_bytes raises the same exception and returns no buffer. *)
Theorem failure_leaves_partial_archive fs src_path :
  (forall dest_path fs1 e,
      open_w fs dest_path = Ok fs1 ->
      raised (find_packages fs1 src_path) = Some e ->
      snd (flat_to_opc fs src_path dest_path) = Err e
      /\ fst (flat_to_opc fs src_path dest_path) dest_path
         = Some
             (File
                (zip_image
                   (List.map (fun p => (slice_from 1 (uri p), data p))
                             (yielded (find_packages fs1 src_path))))))
  /\ (forall e,
         raised (find_packages fs src_path) = Some e ->
         flat_to_opc_bytes fs src_path = Err e).
Proof.
  split.
  - intros dest_path fs1 e Hopen Hraised.
    rewrite flat_to_opc_run, Hopen, Hraised. cbn [fst snd].
    split; [reflexivity | apply write_file_same].
  - intros e Hraised. rewrite flat_to_opc_bytes_run, Hraised. reflexivity.
Qed.

(** X15: when the source cannot be read or parsed, nothing is yielded,
    and flat_to_opc, which has opened the destination already, leaves an
    archive without any entry there, whatever the destination held
    before. *)
Theorem unparsed_source_leaves_empty_archive fs src_path dest_path fs1 e :
  open_w fs dest_path = Ok fs1 ->
  (read_source fs1 src_path = Err e
   \/ exists content,
       read_source fs1 src_path = Ok content /\ parse content = Err e) ->
  find_packages fs1 src_path = Raise e
  /\ flat_to_opc fs src_path dest_path
     = (write_file fs1 dest_path (zip_image []), Err e).
Proof.
  intros Hopen Hfail.
  assert (Hg : find_packages fs1 src_path = Raise e).
  { unfold find_packages.
    destruct Hfail as [-> | [content [-> ->]]]; reflexivity. }
  split; [exact Hg|].
  rewrite flat_to_opc_run, Hopen, Hg. reflexivity.
Qed.



End AssemblerExtras.

(** ** The further properties on concrete inputs *)

Section ExtrasOnTheScenario.
#[local] Existing Instance Demo.xml.
#[local] Existing Instance Demo.base64.
#[local] Existing Instance Demo.zip.

Lemma inserted_line_break_changes_nothing_witness :
  package_part Demo.image_part
  = package_part
      (Element (QName (clark pkg (lit "part"))) []
         [(clark pkg (lit "name"), lit "/word/media/image1.png");
          (clark pkg (lit "contentType"), lit "image/png")]
         None
         [Element (QName (clark pkg (lit "binaryData"))) [] []
                  (Some (lit "iVBO" ++ lit "Rw0KGgo=")) [] None]
         None).
Proof.
  refine (inserted_line_break_changes_nothing
            (QName (clark pkg (lit "part"))) []
            [(clark pkg (lit "name"), lit "/word/media/image1.png");
             (clark pkg (lit "contentType"), lit "image/png")]
            None (QName (clark pkg (lit "binaryData"))) [] [] [] None
            [] None (lit "iVBO") LF (lit "Rw0KGgo=") _).
  left; reflexivity.
Defined.

Lemma literal_and_file_sources_agree_witness :
  (Demo.fs (lit "flat.xml") = Some (File Demo.flat_text)
   /\ Demo.fs Cases.flat_string = None
   /\ encode_utf8 Cases.flat_string = Ok Demo.flat_text)
  /\ find_packages Demo.fs (lit "flat.xml")
     = find_packages Demo.fs Cases.flat_string.
Proof.
  assert (H1 : Demo.fs (lit "flat.xml") = Some (File Demo.flat_text))
    by (vm_compute; reflexivity).
  assert (H2 : Demo.fs Cases.flat_string = None)
    by (vm_compute; reflexivity).
  assert (H3 : encode_utf8 Cases.flat_string = Ok Demo.flat_text)
    by (vm_compute; reflexivity).
  split; [auto|].
  exact (literal_and_file_sources_agree
           Demo.fs (lit "flat.xml") Cases.flat_string Demo.flat_text
           H1 H2 H3).
Defined.


Lemma ascii_literal_is_read_verbatim_witness :
  read_source Demo.fs (lit "<huge/>") = Ok Demo.huge_text.
Proof.
  refine (proj1 (ascii_literal_is_read_verbatim
                   Demo.fs (lit "<huge/>") _ _)).
  - vm_compute; reflexivity.
  - repeat (constructor; [reflexivity|]). constructor.
Defined.

Lemma add_content_overwrites_witness :
  get (ContentTypes._overrides
         (ContentTypes.add_content
            (ContentTypes.add_content ContentTypes.init
               (lit "/b") (lit "image/png"))
            (lit "/a") (lit "image/gif")))
      (lit "/b")
  = Some (lit "image/png").
Proof.
  refine (eq_trans
            (proj1 (proj2 (proj2 (add_content_overwrites
                                    (ContentTypes.add_content
                                       ContentTypes.init
                                       (lit "/b") (lit "image/png"))
                                    (lit "/a") (lit "text/plain")
                                    (lit "image/gif"))))
                   (lit "/b") _)
            _).
  - vm_compute; discriminate.
  - vm_compute; reflexivity.
Defined.




End ExtrasOnTheScenario.

Section ExtrasOnFailures.
#[local] Existing Instance Cases.xml.
#[local] Existing Instance Demo.base64.
#[local] Existing Instance Demo.zip.

Lemma generator_stops_at_first_failure_witness :
  yielded
    (yield_parts
       ([Demo.document_part] ++ Cases.untyped_part :: [Demo.image_part]))
  = [mkPackagePart (lit "/word/document.xml") Demo.document_ct
                   (tostring Demo.w_document)]
  /\ raised
       (yield_parts
          ([Demo.document_part] ++ Cases.untyped_part :: [Demo.image_part]))
     = Some (KeyError (clark pkg (lit "contentType"))).
Proof.
  refine (generator_stops_at_first_failure
            [Demo.document_part] Cases.untyped_part [Demo.image_part]
            _ _ _ _).
  - constructor; [vm_compute; reflexivity | constructor].
  - vm_compute; reflexivity.
Defined.

Lemma missing_attribute_is_a_KeyError_witness :
  package_part Cases.unnamed_part = Err (KeyError (clark pkg (lit "name")))
  /\ package_part Cases.untyped_part
     = Err (KeyError (clark pkg (lit "contentType"))).
Proof.
  split.
  - refine (proj1 (missing_attribute_is_a_KeyError Cases.unnamed_part) _).
    vm_compute; reflexivity.
  - refine (proj2 (missing_attribute_is_a_KeyError Cases.untyped_part)
                  (lit "/word/styles.xml") _ _);
      vm_compute; reflexivity.
Defined.

Lemma part_without_payload_is_an_IndexError_witness :
  package_part (Cases.childless_part (lit "image/png")) = Err IndexError
  /\ package_part (Cases.hollow_part (lit "application/xml") (lit "xmlData"))
     = Err IndexError.
Proof.
  split.
  - refine (proj1 (part_without_payload_is_an_IndexError
                     (Cases.childless_part (lit "image/png"))
                     (lit "/empty") (lit "image/png") _ _) _);
      vm_compute; reflexivity.
  - refine (proj2 (part_without_payload_is_an_IndexError
                     (Cases.hollow_part (lit "application/xml")
                                        (lit "xmlData"))
                     (lit "/hollow") (lit "application/xml") _ _)
                  _ [] _ _ _);
      vm_compute; reflexivity.
Defined.

Lemma empty_binary_payload_is_a_TypeError_witness :
  package_part (Cases.hollow_part (lit "image/png") (lit "binaryData"))
  = Err TypeError.
Proof.
  refine (proj1 (empty_binary_payload_is_a_TypeError
                   (Cases.hollow_part (lit "image/png") (lit "binaryData"))
                   (lit "/hollow") (lit "image/png") _ [] _ _ _ _ _));
    vm_compute; reflexivity.
Defined.

Lemma failure_leaves_partial_archive_witness :
  snd (flat_to_opc Cases.fs (lit "broken.xml") (lit "old.docx"))
  = Err (KeyError (clark pkg (lit "contentType")))
  /\ fst (flat_to_opc Cases.fs (lit "broken.xml") (lit "old.docx"))
         (lit "old.docx")
     = Some
         (File
            (zip_image
               (List.map (fun p => (slice_from 1 (uri p), data p))
                  (yielded
                     (find_packages
                        (write_file Cases.fs (lit "old.docx") [])
                        (lit "broken.xml")))))).
Proof.
  refine (proj1 (failure_leaves_partial_archive Cases.fs (lit "broken.xml"))
                (lit "old.docx") (write_file Cases.fs (lit "old.docx") [])
                (KeyError (clark pkg (lit "contentType"))) _ _).
  - reflexivity.
  - vm_compute; reflexivity.
Defined.

Lemma unparsed_source_leaves_empty_archive_witness :
  find_packages (write_file Cases.fs (lit "old.docx") []) (lit "not xml")
  = Raise (XMLSyntaxError
             (lit "Start tag expected, '<' not found, line 1, column 1"))
  /\ flat_to_opc Cases.fs (lit "not xml") (lit "old.docx")
     = (write_file (write_file Cases.fs (lit "old.docx") []) (lit "old.docx")
                   (zip_image []),
        Err (XMLSyntaxError
               (lit "Start tag expected, '<' not found, line 1, column 1"))).
Proof.
  refine (unparsed_source_leaves_empty_archive
            Cases.fs (lit "not xml") (lit "old.docx")
            (write_file Cases.fs (lit "old.docx") []) _ _ _).
  - reflexivity.
  - right. exists (Demo.ascii_bytes "not xml").
    split; vm_compute; reflexivity.
Defined.

(** The partial archive of the failing document holds the one part that
    came before the part without a content type. *)
Example partial_archive_entries :
  fst (flat_to_opc Cases.fs (lit "broken.xml") (lit "old.docx"))
      (lit "old.docx")
  = Some (File (zip_image
                  [(lit "word/document.xml", tostring Demo.w_document)])).
Proof. vm_compute; reflexivity. Qed.

End ExtrasOnFailures.
